(* ===================================================================== *)
(* Ongea Emergency Services: the IVR call-flow handlers of src/main.py    *)
(* and the markup formatter of src/utils/helper.py, embedded shallowly.  *)
(*                                                                       *)
(* Strings are Rocq strings, Python dicts are stdpp gmaps, Optional[str] *)
(* is option string.  Handlers run in a small monad that records what    *)
(* they print and whether they return or raise.                          *)
(* ===================================================================== *)

From Stdlib Require Import ZArith DecimalString.
From stdpp Require Import base decidable option list strings gmap fin_maps.

Local Open Scope Z_scope.
Local Open Scope string_scope.

(* --------------------------------------------------------------------- *)
(* Python primitives used by the two source files                        *)
(* --------------------------------------------------------------------- *)
Module Py.

(** [str(n)] for a Python int, as an f-string field renders it. *)
Definition str_int (n : Z) : string := NilZero.string_of_int (Z.to_int n).

(** An f-string field holding an [Optional[str]]: [None] prints as "None". *)
Definition str_opt (x : option string) : string :=
  match x with
  | None => "None"
  | Some s => s
  end.

(** Truth value of an [Optional[str]]: [None] and the empty string are falsy. *)
Definition truthy (x : option string) : bool :=
  match x with
  | None => false
  | Some s => negb (String.eqb s "")
  end.

(** [x in l] for a list literal: equality with some element. *)
Definition is_in (x : option string) (l : list (option string)) : bool :=
  bool_decide (x ∈ l).

(** [x == "lit"]. *)
Definition eq_str (x : option string) (lit : string) : bool :=
  bool_decide (x = Some lit).

(** [d.get(k, dflt)] on a dict with string keys; [None] is never a key. *)
Definition dict_get (d : gmap string string) (k : option string)
    (dflt : string) : string :=
  match k with
  | None => dflt
  | Some k' => default dflt (d !! k')
  end.

Inductive exn : Type :=
| KeyError (key : option string)
| HTTPException (status_code : Z) (detail : string).

(** One line written to standard output.  A line built with [str(e)] keeps
    the exception itself next to the text in front of it. *)
Inductive line : Type :=
| Text (s : string)
| ErrorText (s : string) (e : exn).

Inductive outcome (A : Type) : Type :=
| Returned (a : A)
| Raised (e : exn).
Arguments Returned {A} a.
Arguments Raised {A} e.

(** A computation: the lines it printed, in order, and how it ended. *)
Definition io (A : Type) : Type := (list line * outcome A)%type.

Definition ret {A} (a : A) : io A := ([], Returned a).
Definition raise {A} (e : exn) : io A := ([], Raised e).
Definition print (l : line) : io unit := ([l], Returned tt).

Definition bind {A B} (m : io A) (k : A → io B) : io B :=
  match m with
  | (out, Returned a) => let '(out', r) := k a in ((out ++ out')%list, r)
  | (out, Raised e) => (out, Raised e)
  end.

(** [try: body  except Exception as e: handler e]. *)
Definition try_except {A} (body : io A) (handler : exn → io A) : io A :=
  match body with
  | (out, Returned a) => (out, Returned a)
  | (out, Raised e) => let '(out', r) := handler e in ((out ++ out')%list, r)
  end.

(** [d[k]]: raises [KeyError] when the key is absent. *)
Definition dict_index (d : gmap string string) (k : option string) : io string :=
  match k with
  | None => raise (KeyError k)
  | Some k' =>
      match d !! k' with
      | Some v => ret v
      | None => raise (KeyError k)
      end
  end.

Definition stdout {A} (m : io A) : list line := fst m.
Definition result {A} (m : io A) : outcome A := snd m.

End Py.

Import Py.

(** stdpp's monad notations ([x ← m; k] and [m ;; k]) for [io]. *)
#[global] Instance io_ret : MRet io := @ret.
#[global] Instance io_bind : MBind io := fun A B k m => bind m k.

(* --------------------------------------------------------------------- *)
(* src/utils/helper.py : class VoiceHelper (the markup formatter)        *)
(* --------------------------------------------------------------------- *)
Module VoiceHelper.

Definition saySomething (options : gmap string string) : string :=
  let speech := default "" (options !! "speech") in
  "<Say>" +:+ speech +:+ "</Say>".

Definition ongea (textPrompt finishOnKey : string) (timeout : Z)
    (callbackUrl : string) : string :=
  let xml := "<Say>" +:+ textPrompt +:+ "</Say>" in
  xml +:+ ("<CollectDigits timeout='" +:+ str_int timeout
           +:+ "' finishOnKey='" +:+ finishOnKey
           +:+ "' callbackUrl='" +:+ callbackUrl +:+ "'/>").

Definition recordAudio (options : gmap string string) : string :=
  let intro_text :=
    default "Please record your message" (options !! "introductionText") in
  let processing_url := default "" (options !! "audioProcessingUrl") in
  let xml := "<Say>" +:+ intro_text +:+ "</Say>" in
  xml +:+ ("<Record finishOnKey='#' maxLength='60' playBeep='true' callbackUrl='"
           +:+ processing_url +:+ "'/>").

Definition collectDigits (prompt : string) (numDigits timeout : Z)
    (finishOnKey callbackUrl : string) : string :=
  let xml := "<Say>" +:+ prompt +:+ "</Say>" in
  xml +:+ ("<CollectDigits timeout='" +:+ str_int timeout
           +:+ "' finishOnKey='" +:+ finishOnKey
           +:+ "' numDigits='" +:+ str_int numDigits
           +:+ "' callbackUrl='" +:+ callbackUrl +:+ "'/>").

Definition playAudio (audio_url : string) : string :=
  "<Play>" +:+ audio_url +:+ "</Play>".

(** [' '.join(filter(None, attrs))]: the non-empty strings, separated by
    one space. *)
Fixpoint join_nonempty (attrs : list string) : string :=
  match attrs with
  | [] => ""
  | a :: rest =>
      if String.eqb a "" then join_nonempty rest
      else
        let tail := join_nonempty rest in
        if String.eqb tail "" then a else a +:+ " " +:+ tail
  end.

(** The double-quote character that delimits the attributes of [dial]. *)
Definition dquote : string := String (Ascii.ascii_of_nat 34) "".

Definition dial (phone_number : string) (record sequentially : bool)
    (caller_id : string) : string :=
  let record_attr :=
    if record then "record=" +:+ dquote +:+ "true" +:+ dquote else "" in
  let sequential_attr :=
    if sequentially then "sequential=" +:+ dquote +:+ "true" +:+ dquote else "" in
  let caller_id_attr :=
    if negb (String.eqb caller_id "")
    then "callerId=" +:+ dquote +:+ caller_id +:+ dquote
    else "" in
  let attributes :=
    join_nonempty [record_attr; sequential_attr; caller_id_attr] in
  if negb (String.eqb attributes "")
  then "<Dial " +:+ attributes +:+ "><Number>" +:+ phone_number +:+ "</Number></Dial>"
  else "<Dial><Number>" +:+ phone_number +:+ "</Number></Dial>".

Definition redirect (url : string) : string :=
  "<Redirect>" +:+ url +:+ "</Redirect>".

Definition reject : string := "<Reject/>".


End VoiceHelper.

(* --------------------------------------------------------------------- *)
(* src/main.py : the transport response and the step handlers            *)
(* --------------------------------------------------------------------- *)

(** [fastapi.responses.Response]: a body, a status code (200 unless given)
    and a media type (absent unless given). *)
Record Response : Type := mkResponse {
  content : string;
  status_code : Z;
  media_type : option string
}.

Definition xml_Response (xml : string) : Response :=
  {| content := xml; status_code := 200; media_type := Some "text/xml" |}.

Definition empty_204 : Response :=
  {| content := ""; status_code := 204; media_type := None |}.

Definition internal_server_error : exn :=
  HTTPException 500 "Internal server error".

(** [await maybe_await(result)]: the formatter returns a plain [str], which
    has no [__await__], so the value comes back as it is. *)
Definition maybe_await {A} (result : A) : io A := ret result.

Definition create_xml_response (content : string) : string :=
  "<?xml version='1.0' encoding='UTF-8'?><Response>" +:+ content +:+ "</Response>".

(** The handler boundary shared by the steps: print the fault, raise a 500. *)
Definition on_fault (name : string) (e : exn) : io Response :=
  print (ErrorText ("Error in " +:+ name +:+ ": ") e) ;;
  raise internal_server_error.

Definition hunger_region_responses : gmap string string :=
  {[ "1" := "Thank you. Nairobi region office has been notified about the hunger situation. They will contact you shortly.";
     "2" := "Thank you. Turkana region office has been notified about the hunger situation. They will contact you shortly.";
     "3" := "Thank you. Kiambu region office has been notified about the hunger situation. They will contact you shortly." ]}.

Definition water_region_responses : gmap string string :=
  {[ "1" := "Thank you. Nairobi water department has been notified about the water shortage. They will address this issue.";
     "2" := "Thank you. Turkana water department has been notified about the water shortage. They will address this issue.";
     "3" := "Thank you. Kiambu water department has been notified about the water shortage. They will address this issue." ]}.

Definition regions : gmap string string :=
  {[ "1" := "Nairobi"; "2" := "Turkana"; "3" := "Kiambu" ]}.

Section Handlers.

(** [APP_URL], read from the environment once at start. *)
Variable APP_URL : string.

Definition voice_entry (sessionId callerNumber : option string) : io Response :=
  try_except
    (print (Text ("Incoming call - Session: " +:+ str_opt sessionId
                  +:+ ", Caller: " +:+ str_opt callerNumber)) ;;
     let response_content :=
       "<Say>Welcome to Ongea Emergency Services! "
       +:+ "Press 1 for English or 2 for Swahili.</Say>"
       +:+ "<CollectDigits timeout='10' finishOnKey='#' numDigits='1' "
       +:+ "callbackUrl='" +:+ APP_URL +:+ "/voice/language'/>" in
     let xml_response := create_xml_response response_content in
     ret (xml_Response xml_response))
    (on_fault "voice_entry").

Definition language_selection (dtmfDigits sessionId callerNumber : option string)
    : io Response :=
  try_except
    (let pressed_key := dtmfDigits in
     print (Text ("Language selection - Key: " +:+ str_opt pressed_key)) ;;
     call_actions ←
       (if negb (truthy pressed_key)
           || negb (is_in pressed_key [Some "1"; Some "2"])
        then
          maybe_await
            (VoiceHelper.saySomething
               {[ "speech" := "Invalid selection. Please try again." ]})
        else
          maybe_await
            (VoiceHelper.ongea
               "Welcome to Ongea Emergency Services. Press 1 to report hunger, press 2 to report water shortage, press 3 for medical emergency."
               "#" 10 (APP_URL +:+ "/service/selection"))) ;
     let xml_response := create_xml_response call_actions in
     ret (xml_Response xml_response))
    (on_fault "language_selection").

Definition service_selection (dtmfDigits sessionId callerNumber : option string)
    : io Response :=
  try_except
    (let pressed_key := dtmfDigits in
     print (Text ("Service selection - Key: " +:+ str_opt pressed_key)) ;;
     if negb (truthy pressed_key) then ret empty_204
     else
       call_actions ←
         (if eq_str pressed_key "1" then
            maybe_await
              (VoiceHelper.ongea
                 "Thank you for reporting hunger. Please select your region: Press 1 for Nairobi, 2 for Turkana, 3 for Kiambu."
                 "#" 15 (APP_URL +:+ "/hunger/region"))
          else if eq_str pressed_key "2" then
            maybe_await
              (VoiceHelper.ongea
                 "Thank you for reporting water shortage. Please select your region: Press 1 for Nairobi, 2 for Turkana, 3 for Kiambu."
                 "#" 15 (APP_URL +:+ "/water/region"))
          else if eq_str pressed_key "3" then
            maybe_await
              (VoiceHelper.ongea
                 "Medical emergency reported. Please select your region: Press 1 for Nairobi, 2 for Turkana, 3 for Kiambu."
                 "#" 15 (APP_URL +:+ "/emergency/region"))
          else
            maybe_await
              (VoiceHelper.saySomething
                 {[ "speech" := "Invalid selection. Please press 1, 2, or 3." ]})) ;
       let xml_response := create_xml_response call_actions in
       ret (xml_Response xml_response))
    (on_fault "service_selection").

Definition handle_region_response (pressed_key : option string)
    (responses : gmap string string) : io Response :=
  try_except
    (if negb (truthy pressed_key) then ret empty_204
     else
       let speech_text :=
         dict_get responses pressed_key "Invalid selection. Goodbye." in
       call_actions ←
         maybe_await (VoiceHelper.saySomething {[ "speech" := speech_text ]}) ;
       let xml_response := create_xml_response call_actions in
       ret (xml_Response xml_response))
    (on_fault "handle_region_response").

Definition hunger_region_selection
    (dtmfDigits sessionId callerNumber : option string) : io Response :=
  let region_responses := hunger_region_responses in
  handle_region_response dtmfDigits region_responses.

Definition water_region_selection
    (dtmfDigits sessionId callerNumber : option string) : io Response :=
  let region_responses := water_region_responses in
  handle_region_response dtmfDigits region_responses.

Definition emergency_region_selection
    (dtmfDigits sessionId callerNumber : option string) : io Response :=
  try_except
    (let pressed_key := dtmfDigits in
     call_actions ←
       (if is_in pressed_key [Some "1"; Some "2"; Some "3"] then
          region_name ← dict_index regions pressed_key ;
          maybe_await
            (VoiceHelper.recordAudio
               {[ "introductionText" :=
                    "Emergency services for " +:+ region_name
                    +:+ " region activated. Please describe your emergency in detail and press hash when finished.";
                  "audioProcessingUrl" := APP_URL +:+ "/emergency/recording" ]})
        else
          maybe_await
            (VoiceHelper.saySomething
               {[ "speech" := "Invalid selection. Please press 1, 2, or 3." ]})) ;
     let xml_response := create_xml_response call_actions in
     ret (xml_Response xml_response))
    (on_fault "emergency_region_selection").

Definition emergency_recording_handler
    (recordingUrl durationInSeconds sessionId callerNumber : option string)
    : io Response :=
  try_except
    (print (Text ("Emergency recording received - URL: " +:+ str_opt recordingUrl
                  +:+ ", Duration: " +:+ str_opt durationInSeconds +:+ "s")) ;;
     call_actions ←
       maybe_await
         (VoiceHelper.saySomething
            {[ "speech" := "Your emergency report has been recorded and sent to the appropriate authorities. Emergency services will respond shortly. Thank you for calling." ]}) ;
     let xml_response := create_xml_response call_actions in
     ret (xml_Response xml_response))
    (on_fault "emergency_recording_handler").

Definition ongea_special (dtmfDigits : option string) : io Response :=
  try_except
    (let pressed_key := dtmfDigits in
     print (Text ("DEBUG: Pressed key = " +:+ str_opt pressed_key)) ;;
     if is_in pressed_key [None; Some "undefined"] then ret empty_204
     else
       call_actions ←
         (if eq_str pressed_key "2545" then
            maybe_await
              (VoiceHelper.ongea "Welcome Back to Medicare Services."
                 "#" 15 (APP_URL +:+ "/emergency/region"))
          else
            maybe_await
              (VoiceHelper.saySomething
                 {[ "speech" := "The code entered is not valid." ]})) ;
       let xml_response := create_xml_response call_actions in
       ret (xml_Response xml_response))
    (on_fault "ongea_special").

End Handlers.

(* --------------------------------------------------------------------- *)
(* The route table: one step per path, and the form fields each takes    *)
(* --------------------------------------------------------------------- *)

Inductive Step : Type :=
| Entry
| LanguageSelect
| ServiceSelect
| HungerRegion
| WaterRegion
| EmergencyRegion
| EmergencyRecording
| Diagnostic.

#[global] Instance Step_eq_dec : EqDecision Step.
Proof. solve_decision. Defined.

(** The path each handler is registered under ([@app.post(...)]). *)
Definition path (st : Step) : string :=
  match st with
  | Entry => "/voice"
  | LanguageSelect => "/voice/language"
  | ServiceSelect => "/service/selection"
  | HungerRegion => "/hunger/region"
  | WaterRegion => "/water/region"
  | EmergencyRegion => "/emergency/region"
  | EmergencyRecording => "/emergency/recording"
  | Diagnostic => "/ongea"
  end.

(** The form fields of a request; every field is optional ([Form(None)]). *)
Record Form : Type := mkForm {
  dtmfDigits : option string;
  sessionId : option string;
  callerNumber : option string;
  recordingUrl : option string;
  durationInSeconds : option string
}.

(** A POST to [path st] with form [f]: each handler reads its own fields. *)
Definition post (APP_URL : string) (st : Step) (f : Form) : io Response :=
  match st with
  | Entry => voice_entry APP_URL (sessionId f) (callerNumber f)
  | LanguageSelect =>
      language_selection APP_URL (dtmfDigits f) (sessionId f) (callerNumber f)
  | ServiceSelect =>
      service_selection APP_URL (dtmfDigits f) (sessionId f) (callerNumber f)
  | HungerRegion =>
      hunger_region_selection (dtmfDigits f) (sessionId f) (callerNumber f)
  | WaterRegion =>
      water_region_selection (dtmfDigits f) (sessionId f) (callerNumber f)
  | EmergencyRegion =>
      emergency_region_selection APP_URL (dtmfDigits f) (sessionId f) (callerNumber f)
  | EmergencyRecording =>
      emergency_recording_handler (recordingUrl f) (durationInSeconds f)
        (sessionId f) (callerNumber f)
  | Diagnostic => ongea_special APP_URL (dtmfDigits f)
  end.

(* --------------------------------------------------------------------- *)
(* Reading a markup document back: occurrences of a tag or a phrase      *)
(* --------------------------------------------------------------------- *)

(** How many positions of [s] start an occurrence of [pat]. *)
Fixpoint occurrences (pat s : string) : nat :=
  ((if String.prefix pat s then 1 else 0)
   + match s with
     | EmptyString => 0
     | String _ s' => occurrences pat s'
     end)%nat.

Definition contains (pat s : string) : bool :=
  negb (Nat.eqb (occurrences pat s) 0).

(** The opening of each action tag the formatter can emit. *)
Definition say_tag : string := "<Say>".
Definition collect_tag : string := "<CollectDigits".
Definition record_tag : string := "<Record".

(* --------------------------------------------------------------------- *)
(* The step table of the call flow, as the properties below read it      *)
(* --------------------------------------------------------------------- *)

(** The inputs a step accepts.  [Entry] and [EmergencyRecording] take no
    digit input. *)
Definition valid_input (st : Step) (k : string) : bool :=
  match st with
  | LanguageSelect => bool_decide (k ∈ ["1"; "2"])
  | ServiceSelect => bool_decide (k ∈ ["1"; "2"; "3"])
  | HungerRegion => bool_decide (is_Some (hunger_region_responses !! k))
  | WaterRegion => bool_decide (is_Some (water_region_responses !! k))
  | EmergencyRegion => bool_decide (k ∈ ["1"; "2"; "3"])
  | Diagnostic => bool_decide (k = "2545")
  | Entry | EmergencyRecording => false
  end.





(** The steps that answer a missing input with the empty 204 response. *)
Definition noop_steps : list Step := [ServiceSelect; HungerRegion; WaterRegion].

(** Digit to region name, as the call flow announces them. *)
Definition region_names : list (string * string) :=
  [("1", "Nairobi"); ("2", "Turkana"); ("3", "Kiambu")].

(** A form carrying only the digits. *)
Definition digits_only (d : option string) : Form :=
  mkForm d None None None None.

(* --------------------------------------------------------------------- *)
(* The call flow as a graph, and the inputs a step tells apart           *)
(* --------------------------------------------------------------------- *)

(** The step whose path a response names as its callback, after step [st]
    saw the digits [d]; [None] when the response names no callback. *)
Definition next_step (st : Step) (d : option string) : option Step :=
  match st, d with
  | Entry, _ => Some LanguageSelect
  | LanguageSelect, Some k =>
      if bool_decide (k ∈ ["1"; "2"]) then Some ServiceSelect else None
  | ServiceSelect, Some k =>
      if bool_decide (k = "1") then Some HungerRegion
      else if bool_decide (k = "2") then Some WaterRegion
      else if bool_decide (k = "3") then Some EmergencyRegion
      else None
  | EmergencyRegion, Some k =>
      if bool_decide (k ∈ ["1"; "2"; "3"]) then Some EmergencyRecording else None
  | Diagnostic, Some k =>
      if bool_decide (k = "2545") then Some EmergencyRegion else None
  | _, _ => None
  end.

(** The longest run of turns that can still follow, this one included. *)
Definition turns_left (st : Step) : nat :=
  match st with
  | Entry => 5
  | LanguageSelect => 4
  | ServiceSelect | Diagnostic => 3
  | EmergencyRegion => 2
  | HungerRegion | WaterRegion | EmergencyRecording => 1
  end.

(** A 200 markup response whose body is the Response envelope around a
    document [doc] followed by the callback attribute that closes the last
    action; [doc] holds one Say tag, the tag of the one collecting action
    (CollectDigits or Record) and no callback of its own. *)
Definition carries_callback (u : string) (r : Response) : Prop :=
  status_code r = 200
  ∧ media_type r = Some "text/xml"
  ∧ ∃ doc, content r
           = "<?xml version='1.0' encoding='UTF-8'?><Response>"
             +:+ doc +:+ "callbackUrl='" +:+ u +:+ "'/></Response>"
           ∧ occurrences "callbackUrl" doc = 0%nat
           ∧ occurrences say_tag doc = 1%nat
           ∧ (occurrences collect_tag doc + occurrences record_tag doc)%nat
             = 1%nat.

(** The digit strings some handler compares its input with. *)
Definition listed_inputs : list string :=
  [""; "1"; "2"; "3"; "2545"; "undefined"].

(** One input of each kind a handler can tell apart: missing, each listed
    string, and "0" for every other string. *)
Definition probe_inputs : list (option string) :=
  None :: Some "0" :: (Some <$> listed_inputs).

(** The service menu: digit, the prompt that answers it, and the step that
    takes the region. *)
Definition service_menu : list (string * string * Step) :=
  [("1", "Thank you for reporting hunger. Please select your region: Press 1 for Nairobi, 2 for Turkana, 3 for Kiambu.", HungerRegion);
   ("2", "Thank you for reporting water shortage. Please select your region: Press 1 for Nairobi, 2 for Turkana, 3 for Kiambu.", WaterRegion);
   ("3", "Medical emergency reported. Please select your region: Press 1 for Nairobi, 2 for Turkana, 3 for Kiambu.", EmergencyRegion)].

(** An attribute of [dial], as it stands in the tag: a space, the name, and
    the value between double quotes. *)
Definition dial_attribute (name value : string) : string :=
  " " +:+ name +:+ "=" +:+ VoiceHelper.dquote +:+ value +:+ VoiceHelper.dquote.

(* --------------------------------------------------------------------- *)
(* Python tests on a present input                                        *)
(* --------------------------------------------------------------------- *)

Lemma truthy_Some (k : string) :
  truthy (Some k) = negb (bool_decide (k = "")).
Proof.
  unfold truthy. f_equal.
  destruct (String.eqb_spec k "") as [->|Hne]; [done|].
  by rewrite bool_decide_eq_false_2.
Qed.

Lemma is_in_Some (k : string) (l : list string) :
  is_in (Some k) (Some <$> l) = bool_decide (k ∈ l).
Proof.
  unfold is_in. apply bool_decide_ext.
  rewrite list_elem_of_fmap. split.
  - intros (y & Heq & Hy). by simplify_eq.
  - intros Hk. by exists k.
Qed.


Lemma eq_str_Some (k lit : string) :
  eq_str (Some k) lit = bool_decide (k = lit).
Proof. unfold eq_str. apply bool_decide_ext. split; [by intros [= ->]|by intros ->]. Qed.

Lemma dict_get_absent (d : gmap string string) (k dflt : string) :
  ¬ is_Some (d !! k) → dict_get d (Some k) dflt = dflt.
Proof.
  intros Hk. unfold dict_get.
  destruct (d !! k) eqn:E; [|done]. exfalso. apply Hk. by eexists.
Qed.

Lemma dict_get_present (d : gmap string string) (k dflt v : string) :
  d !! k = Some v → dict_get d (Some k) dflt = v.
Proof. intros Hk. unfold dict_get. by rewrite Hk. Qed.

(** The result of a handler body that prints one line and then continues. *)
Lemma result_try_print {A} (l : line) (m : io A) (h : exn → io A) :
  result (try_except (print l ;; m) h) = result (try_except m h).
Proof.
  unfold result, try_except, mbind, io_bind, bind, print.
  destruct m as [out [a|e]]; simpl; [done|].
  by destruct (h e).
Qed.

Lemma result_try_ret {A} (a : A) (h : exn → io A) :
  result (try_except (ret a) h) = Returned a.
Proof. done. Qed.

(* --------------------------------------------------------------------- *)
(* Invalid input                                                         *)
(* --------------------------------------------------------------------- *)






(* --------------------------------------------------------------------- *)
(* Missing and empty input                                               *)
(* --------------------------------------------------------------------- *)

(** The guard [if not pressed_key] of the three steps: a falsy input ends the
    handler with the empty 204 response. *)
Lemma falsy_input_is_noop (APP_URL : string) (st : Step) (f : Form) :
  st ∈ noop_steps →
  truthy (dtmfDigits f) = false →
  result (post APP_URL st f) = Returned empty_204.
Proof.
  intros Hst Hd. unfold noop_steps in Hst.
  rewrite !elem_of_cons in Hst.
  destruct Hst as [->|[->|[->|Hnil]]]; [..|by apply elem_of_nil in Hnil];
    unfold post.
  - unfold service_selection. by rewrite result_try_print, Hd.
  - unfold hunger_region_selection, handle_region_response. by rewrite Hd.
  - unfold water_region_selection, handle_region_response. by rewrite Hd.
Qed.

(** C2.  At ServiceSelect, HungerRegion and WaterRegion a request without
    dtmfDigits gets the no-op response: status 204, an empty body, no media
    type, hence no markup document and no Say action. *)
Theorem missing_input_is_noop (APP_URL : string) (st : Step) (f : Form) :
  st ∈ noop_steps →
  dtmfDigits f = None →
  ∃ r, result (post APP_URL st f) = Returned r
       ∧ status_code r = 204
       ∧ content r = ""
       ∧ media_type r = None
       ∧ occurrences say_tag (content r) = 0%nat.
Proof.
  intros Hst Hd. exists empty_204.
  split; [|by vm_compute].
  apply falsy_input_is_noop; [done|]. by rewrite Hd.
Qed.

Lemma missing_input_is_noop_witness :
  ∃ r, result (post "https://your-domain.com" HungerRegion (digits_only None))
       = Returned r
       ∧ status_code r = 204
       ∧ content r = ""
       ∧ media_type r = None
       ∧ occurrences say_tag (content r) = 0%nat.
Proof.
  apply (missing_input_is_noop "https://your-domain.com" HungerRegion
           (digits_only None)).
  - unfold noop_steps. apply elem_of_cons. right. apply elem_of_cons. by left.
  - reflexivity.
Defined.

(** C10.  At ServiceSelect, HungerRegion and WaterRegion a request whose
    dtmfDigits is present but empty is answered exactly like a request
    without dtmfDigits: the 204 no-op with an empty body, not the
    invalid-selection Say action. *)
Theorem empty_input_is_noop (APP_URL : string) (st : Step) (f g : Form) :
  st ∈ noop_steps →
  dtmfDigits f = Some "" →
  dtmfDigits g = None →
  ∃ r, result (post APP_URL st f) = Returned r
       ∧ result (post APP_URL st g) = Returned r
       ∧ status_code r = 204
       ∧ content r = ""
       ∧ media_type r = None
       ∧ occurrences say_tag (content r) = 0%nat.
Proof.
  intros Hst Hf Hg. exists empty_204.
  split_and!; try by vm_compute.
  - apply falsy_input_is_noop; [done|]. by rewrite Hf.
  - apply falsy_input_is_noop; [done|]. by rewrite Hg.
Qed.

Lemma empty_input_is_noop_witness :
  ∃ r, result (post "https://your-domain.com" WaterRegion
                 (digits_only (Some ""))) = Returned r
       ∧ result (post "https://your-domain.com" WaterRegion
                   (digits_only None)) = Returned r
       ∧ status_code r = 204
       ∧ content r = ""
       ∧ media_type r = None
       ∧ occurrences say_tag (content r) = 0%nat.
Proof.
  apply (empty_input_is_noop "https://your-domain.com" WaterRegion
           (digits_only (Some "")) (digits_only None)).
  - unfold noop_steps. do 2 (apply elem_of_cons; right). apply elem_of_cons. by left.
  - reflexivity.
  - reflexivity.
Defined.


(* --------------------------------------------------------------------- *)
(* Valid input: prompts, tables and callback URLs                        *)
(* --------------------------------------------------------------------- *)

Lemma append_assoc (a b c : string) : (a +:+ b) +:+ c = a +:+ (b +:+ c).
Proof.
  induction a as [|x a IH]; [done|].
  change (String x ((a +:+ b) +:+ c) = String x (a +:+ (b +:+ c))).
  by f_equal.
Qed.

Lemma region_names_cases (k name : string) :
  (k, name) ∈ region_names →
  (k = "1" ∧ name = "Nairobi") ∨ (k = "2" ∧ name = "Turkana")
  ∨ (k = "3" ∧ name = "Kiambu").
Proof.
  unfold region_names. rewrite !elem_of_cons, elem_of_nil.
  intros [?|[?|[?|[]]]]; simplify_eq; auto.
Qed.

(** Every key of a three-entry table is one of its three keys. *)
Lemma three_key_table (a b c k v : string) :
  ({[ "1" := a; "2" := b; "3" := c ]} : gmap string string) !! k = Some v →
  (k = "1" ∧ v = a) ∨ (k = "2" ∧ v = b) ∨ (k = "3" ∧ v = c).
Proof.
  intros H.
  destruct (decide (k = "1")) as [->|H1]; [left; by simplify_map_eq|].
  destruct (decide (k = "2")) as [->|H2]; [right; left; by simplify_map_eq|].
  destruct (decide (k = "3")) as [->|H3]; [right; right; by simplify_map_eq|].
  by simplify_map_eq.
Qed.



(** A region step on a key of its table speaks the table's text. *)
Lemma region_step_speaks (pressed_key : option string)
    (responses : gmap string string) (k t : string) :
  pressed_key = Some k →
  responses !! k = Some t →
  k ≠ "" →
  result (handle_region_response pressed_key responses)
  = Returned (xml_Response (create_xml_response ("<Say>" +:+ t +:+ "</Say>"))).
Proof.
  intros -> Ht Hk. unfold handle_region_response.
  rewrite truthy_Some, bool_decide_eq_false_2 by done. simpl negb. cbv iota.
  by rewrite (dict_get_present _ _ _ _ Ht).
Qed.

(* --------------------------------------------------------------------- *)
(* Statelessness                                                         *)
(* --------------------------------------------------------------------- *)

(** C8.  For every step and every dtmfDigits (missing included), two
    requests that agree on dtmfDigits get the same result, whatever their
    sessionId and callerNumber (and their recording fields): the same status
    code, the same media type and the same body.  The response is a function
    of the step and the last input alone. *)
Theorem response_determined_by_step_and_input
    (APP_URL : string) (st : Step) (f g : Form) :
  dtmfDigits f = dtmfDigits g →
  result (post APP_URL st f) = result (post APP_URL st g).
Proof.
  intros Hd. destruct st; unfold post; rewrite <- ?Hd.
  - unfold voice_entry. by rewrite !result_try_print.
  - unfold language_selection. by rewrite !result_try_print.
  - unfold service_selection. by rewrite !result_try_print.
  - done.
  - done.
  - done.
  - unfold emergency_recording_handler. by rewrite !result_try_print.
  - done.
Qed.

Lemma response_determined_by_step_and_input_witness :
  result (post "https://your-domain.com" LanguageSelect
            (mkForm (Some "1") (Some "ATVId_1") (Some "+254700000001") None None))
  = result (post "https://your-domain.com" LanguageSelect
              (mkForm (Some "1") (Some "ATVId_2") None None None)).
Proof.
  apply (response_determined_by_step_and_input "https://your-domain.com"
           LanguageSelect).
  reflexivity.
Defined.

(** What the two requests of a call do not share is only what is printed. *)
Example entry_prints_the_session :
  stdout (post "https://your-domain.com" Entry
            (mkForm None (Some "ATVId_1") None None None))
  ≠ stdout (post "https://your-domain.com" Entry
              (mkForm None (Some "ATVId_2") None None None)).
Proof. by vm_compute. Qed.

(* --------------------------------------------------------------------- *)
(* The formatter and free text                                           *)
(* --------------------------------------------------------------------- *)




(* --------------------------------------------------------------------- *)
(* Counting action tags through concatenation                            *)
(* --------------------------------------------------------------------- *)

Lemma prefix_empty (s : string) : String.prefix "" s = true.
Proof. by destruct s. Qed.

Lemma occurrences_nil (y : Ascii.ascii) (p : string) :
  occurrences (String y p) "" = 0%nat.
Proof. done. Qed.

Lemma occurrences_cons (pat : string) (a : Ascii.ascii) (s : string) :
  occurrences pat (String a s)
  = ((if String.prefix pat (String a s) then 1 else 0) + occurrences pat s)%nat.
Proof. done. Qed.

(** A string without the character [x]. *)
Lemma no_char_cons (x a : Ascii.ascii) (p : string) :
  occurrences (String x "") (String a p) = 0%nat →
  x ≠ a ∧ occurrences (String x "") p = 0%nat.
Proof.
  rewrite occurrences_cons. cbn [String.prefix].
  destruct (Ascii.ascii_dec x a) as [->|Hne]; rewrite ?prefix_empty; [lia|].
  intros H. split; [done|lia].
Qed.

(** A prefix test never looks past a character the pattern does not hold. *)
Lemma prefix_app_other (x : Ascii.ascii) (p c rest : string) :
  occurrences (String x "") p = 0%nat →
  String.prefix p (c +:+ String x rest) = String.prefix p c.
Proof.
  revert c. induction p as [|a p IH]; intros c Hp.
  - by rewrite !prefix_empty.
  - apply no_char_cons in Hp as [Hne Hp].
    destruct c as [|b c].
    + change ("" +:+ String x rest) with (String x rest). cbn [String.prefix].
      destruct (Ascii.ascii_dec a x) as [->|_]; [done|done].
    + change (String b c +:+ String x rest) with (String b (c +:+ String x rest)).
      cbn [String.prefix].
      destruct (Ascii.ascii_dec a b); [by apply IH|done].
Qed.

(** No occurrence of a pattern straddles a character that the pattern holds
    at most in front. *)
Lemma occurrences_app_boundary (y x : Ascii.ascii) (p c rest : string) :
  occurrences (String x "") p = 0%nat →
  occurrences (String y p) (c +:+ String x rest)
  = (occurrences (String y p) c + occurrences (String y p) (String x rest))%nat.
Proof.
  intros Hp. induction c as [|b c IH].
  - done.
  - change (String b c +:+ String x rest) with (String b (c +:+ String x rest)).
    rewrite !(occurrences_cons _ b), IH.
    cbn [String.prefix].
    destruct (Ascii.ascii_dec y b); [|lia].
    rewrite (prefix_app_other x) by done. lia.
Qed.

Lemma occurrences_app_boundary_app (y x : Ascii.ascii) (p c r1 r2 : string) :
  occurrences (String x "") p = 0%nat →
  occurrences (String y p) (c +:+ (String x r1 +:+ r2))
  = (occurrences (String y p) c
     + occurrences (String y p) (String x r1 +:+ r2))%nat.
Proof. apply occurrences_app_boundary. Qed.

(** A pattern does not occur in a string that lacks its first character. *)
Lemma occurrences_no_first (y : Ascii.ascii) (p s : string) :
  occurrences (String y "") s = 0%nat → occurrences (String y p) s = 0%nat.
Proof.
  induction s as [|a s IH]; [done|].
  intros [Hne Hs]%no_char_cons.
  rewrite occurrences_cons, IH by done. cbn [String.prefix].
  by destruct (Ascii.ascii_dec y a).
Qed.

(** The decimal rendering of an integer holds digits and a sign only. *)
Lemma string_of_uint_no_lt (d : Decimal.uint) :
  occurrences "<" (NilEmpty.string_of_uint d) = 0%nat.
Proof. induction d; [done|..]; cbn [NilEmpty.string_of_uint]; by rewrite occurrences_cons, IHd. Qed.

Lemma str_int_no_lt (n : Z) : occurrences "<" (str_int n) = 0%nat.
Proof.
  assert (∀ d, occurrences "<" (NilZero.string_of_uint d) = 0%nat) as Huint.
  { intros d. unfold NilZero.string_of_uint.
    destruct d; [done|..]; apply string_of_uint_no_lt. }
  unfold str_int, NilZero.string_of_int.
  destruct (Z.to_int n) as [d|d]; [apply Huint|].
  by rewrite occurrences_cons, Huint.
Qed.

(** One step of counting a tag through a fragment: past a literal, or past
    a caller's string that is followed by a literal. *)
Ltac count_step :=
  match goal with
  | |- context [occurrences ?t (String ?a ?l +:+ ?X)] =>
      let n := eval vm_compute in (occurrences t (String a l)) in
      let H := fresh in
      assert (∀ Y, occurrences t (String a l +:+ Y)
                   = (n + occurrences t Y)%nat) as H
        by (intros []; reflexivity);
      rewrite !H; clear H
  | |- context [occurrences (String ?y ?p) (?c +:+ (String ?x ?r1 +:+ ?r2))] =>
      rewrite (occurrences_app_boundary_app y x p c r1 r2) by reflexivity
  | |- context [occurrences (String ?y ?p) (?c +:+ String ?x ?r)] =>
      rewrite (occurrences_app_boundary y x p c r) by reflexivity
  end.

Ltac count_closed :=
  repeat match goal with
  | |- context [occurrences ?t (String ?a ?l)] =>
      let n := eval vm_compute in (occurrences t (String a l)) in
      change (occurrences t (String a l)) with n
  end.

Ltac count_tags :=
  unfold say_tag, collect_tag, record_tag;
  rewrite ?append_assoc; repeat count_step; count_closed;
  rewrite ?(occurrences_no_first _ _ _ (str_int_no_lt _)).


(* --------------------------------------------------------------------- *)
(* The inputs a step tells apart                                         *)
(* --------------------------------------------------------------------- *)

(** The result of a step depends on the form through dtmfDigits only. *)
Lemma result_post_digits (APP_URL : string) (st : Step) (f : Form) :
  result (post APP_URL st f)
  = result (post APP_URL st (digits_only (dtmfDigits f))).
Proof.
  destruct st; unfold post; simpl dtmfDigits.
  - unfold voice_entry. by rewrite !result_try_print.
  - unfold language_selection. by rewrite !result_try_print.
  - unfold service_selection. by rewrite !result_try_print.
  - done.
  - done.
  - done.
  - unfold emergency_recording_handler. by rewrite !result_try_print.
  - done.
Qed.

Lemma unlisted_not_table_key (a b c k : string) :
  k ∉ listed_inputs →
  ¬ is_Some (({[ "1" := a; "2" := b; "3" := c ]} : gmap string string) !! k).
Proof.
  unfold listed_inputs. rewrite !not_elem_of_cons.
  intros (_ & H1 & H2 & H3 & _) [v Hv].
  apply three_key_table in Hv as [[-> _]|[[-> _]|[-> _]]]; done.
Qed.

(** A string no handler compares with is answered like "0". *)
Lemma post_unlisted_input (APP_URL : string) (st : Step) (k : string) :
  k ∉ listed_inputs →
  result (post APP_URL st (digits_only (Some k)))
  = result (post APP_URL st (digits_only (Some "0"))).
Proof.
  intros Hk. pose proof Hk as Hk'.
  unfold listed_inputs in Hk'. rewrite !not_elem_of_cons in Hk'.
  destruct Hk' as (H0 & H1 & H2 & H3 & H4 & H5 & _).
  assert (k ∉ ["1"; "2"]) as H12 by (rewrite !not_elem_of_cons; split_and!; auto using not_elem_of_nil).
  assert (k ∉ ["1"; "2"; "3"]) as H123 by (rewrite !not_elem_of_cons; split_and!; auto using not_elem_of_nil).
  destruct st; unfold post; simpl dtmfDigits.
  - done.
  - unfold language_selection. rewrite !result_try_print.
    change [Some "1"; Some "2"] with (Some <$> ["1"; "2"]).
    by rewrite is_in_Some, (bool_decide_eq_false_2 _ H12), orb_true_r.
  - unfold service_selection. rewrite !result_try_print.
    rewrite truthy_Some, (bool_decide_eq_false_2 _ H0).
    rewrite !eq_str_Some, !bool_decide_eq_false_2 by done. done.
  - unfold hunger_region_selection, handle_region_response.
    rewrite truthy_Some, (bool_decide_eq_false_2 _ H0).
    simpl negb. cbv iota.
    by rewrite dict_get_absent by (by apply unlisted_not_table_key).
  - unfold water_region_selection, handle_region_response.
    rewrite truthy_Some, (bool_decide_eq_false_2 _ H0).
    simpl negb. cbv iota.
    by rewrite dict_get_absent by (by apply unlisted_not_table_key).
  - unfold emergency_region_selection.
    change [Some "1"; Some "2"; Some "3"] with (Some <$> ["1"; "2"; "3"]).
    by rewrite is_in_Some, (bool_decide_eq_false_2 _ H123).
  - done.
  - unfold ongea_special. rewrite !result_try_print.
    assert (is_in (Some k) [None; Some "undefined"] = false) as ->.
    { apply bool_decide_eq_false_2.
      rewrite !not_elem_of_cons. split_and!; [done|congruence|apply not_elem_of_nil]. }
    by rewrite eq_str_Some, (bool_decide_eq_false_2 _ H4).
Qed.

(** Every request is answered like one of the probe inputs: the one with the
    same digits, or "0" when no handler compares with the digits. *)
Lemma post_probe (APP_URL : string) (st : Step) (f : Form) :
  ∃ d, d ∈ probe_inputs
       ∧ result (post APP_URL st f) = result (post APP_URL st (digits_only d))
       ∧ (dtmfDigits f = d
          ∨ ∃ k, dtmfDigits f = Some k ∧ (k ∉ listed_inputs) ∧ d = Some "0").
Proof.
  rewrite result_post_digits.
  destruct (dtmfDigits f) as [k|].
  - destruct (decide (k ∈ listed_inputs)) as [Hin|Hout].
    + exists (Some k). split_and!; [|done|by left].
      unfold probe_inputs. do 2 (apply elem_of_cons; right).
      apply list_elem_of_fmap. by exists k.
    + exists (Some "0"). split_and!.
      * unfold probe_inputs. apply elem_of_cons. right. apply elem_of_cons. by left.
      * by apply post_unlisted_input.
      * right. by exists k.
  - exists None. split_and!; [apply elem_of_cons; by left|done|by left].
Qed.

Lemma probe_inputs_cases (d : option string) :
  d ∈ probe_inputs →
  d = None ∨ d = Some "0" ∨ d = Some "" ∨ d = Some "1" ∨ d = Some "2"
  ∨ d = Some "3" ∨ d = Some "2545" ∨ d = Some "undefined".
Proof.
  unfold probe_inputs, listed_inputs. cbn [fmap list_fmap].
  rewrite !elem_of_cons, elem_of_nil. tauto.
Qed.

Lemma next_step_unlisted (st : Step) (k : string) :
  k ∉ listed_inputs → next_step st (Some k) = next_step st (Some "0").
Proof.
  unfold listed_inputs. rewrite !not_elem_of_cons.
  intros (H0 & H1 & H2 & H3 & H4 & H5 & _).
  destruct st; simpl; try done.
  - rewrite bool_decide_eq_false_2; [done|].
    rewrite !not_elem_of_cons. split_and!; auto using not_elem_of_nil.
  - by rewrite !bool_decide_eq_false_2 by done.
  - rewrite bool_decide_eq_false_2; [done|].
    rewrite !not_elem_of_cons. split_and!; auto using not_elem_of_nil.
  - by rewrite !bool_decide_eq_false_2 by done.
Qed.

(* --------------------------------------------------------------------- *)
(* Every turn: a response, one prompt, at most one collection            *)
(* --------------------------------------------------------------------- *)

(** Lookups in the dict literals of the handlers. *)
Ltac dict_lookups :=
  cbv beta iota delta [dict_get dtmfDigits digits_only];
  repeat match goal with
  | |- context [default ?a (hunger_region_responses !! ?k)] =>
      let v := eval vm_compute in (default a (hunger_region_responses !! k)) in
      change (default a (hunger_region_responses !! k)) with v
  | |- context [default ?a (water_region_responses !! ?k)] =>
      let v := eval vm_compute in (default a (water_region_responses !! k)) in
      change (default a (water_region_responses !! k)) with v
  end;
  repeat first
    [ rewrite lookup_insert_eq
    | rewrite lookup_singleton_eq
    | rewrite lookup_insert_ne by done
    | rewrite lookup_singleton_ne by done ];
  simpl default.

Ltac each_probe Hd :=
  apply probe_inputs_cases in Hd;
  destruct Hd as [->|[->|[->|[->|[->|[->|[->| ->]]]]]]].

(** X1.  No handler ever raises: for every step and every form the handler
    returns, either the empty 204 response without media type or a 200
    text/xml response whose body is a document in the Response envelope.
    The 500 path of the handlers is never taken; in particular the lookup
    [regions[pressed_key]] never misses. *)
Theorem every_step_returns (APP_URL : string) (st : Step) (f : Form) :
  ∃ r, result (post APP_URL st f) = Returned r
       ∧ ((status_code r = 204 ∧ content r = "" ∧ media_type r = None)
          ∨ (status_code r = 200 ∧ media_type r = Some "text/xml"
             ∧ ∃ doc, content r = create_xml_response doc)).
Proof.
  destruct (post_probe APP_URL st f) as (d & Hd & -> & _).
  each_probe Hd; destruct st;
    (eexists; split; [reflexivity|];
     first [ left; by split_and!
           | right; split_and!; [done|done|eexists; reflexivity] ]).
Qed.

(** X2.  When the base URL holds no '<', every response of every step holds
    at most one prompt and at most one collecting action: a 200 response has
    exactly one Say tag, and CollectDigits and Record tags together occur at
    most once; the 204 response has none. *)
Theorem one_prompt_per_turn
    (APP_URL : string) (st : Step) (f : Form) (r : Response) :
  occurrences "<" APP_URL = 0%nat →
  result (post APP_URL st f) = Returned r →
  occurrences say_tag (content r) = (if decide (status_code r = 200) then 1%nat else 0%nat)
  ∧ (occurrences collect_tag (content r) + occurrences record_tag (content r)
     ≤ 1)%nat.
Proof.
  intros HU Hr.
  destruct (post_probe APP_URL st f) as (d & Hd & Heq & _).
  rewrite Heq in Hr. clear Heq.
  assert (∃ r', result (post APP_URL st (digits_only d)) = Returned r'
                ∧ occurrences say_tag (content r')
                  = (if decide (status_code r' = 200) then 1%nat else 0%nat)
                ∧ (occurrences collect_tag (content r')
                   + occurrences record_tag (content r') ≤ 1)%nat)
    as (r' & Hr' & Hcount).
  { each_probe Hd; destruct st;
      (eexists; split; [reflexivity|];
       unfold xml_Response, empty_204, content, status_code, create_xml_response,
         VoiceHelper.ongea, VoiceHelper.saySomething, VoiceHelper.recordAudio;
       dict_lookups; split; count_tags;
       rewrite ?(occurrences_no_first _ _ _ HU); simpl; lia). }
  rewrite Hr' in Hr. by simplify_eq.
Qed.

Lemma one_prompt_per_turn_witness :
  let r := xml_Response (create_xml_response "<Say>Invalid selection. Goodbye.</Say>") in
  occurrences say_tag (content r)
  = (if decide (status_code r = 200) then 1%nat else 0%nat)
  ∧ (occurrences collect_tag (content r) + occurrences record_tag (content r)
     ≤ 1)%nat.
Proof.
  apply (one_prompt_per_turn "https://your-domain.com" HungerRegion
           (digits_only (Some "7"))).
  - reflexivity.
  - reflexivity.
Defined.


(* --------------------------------------------------------------------- *)
(* Callbacks: where a response sends the call next                       *)
(* --------------------------------------------------------------------- *)

(** The fragments that end in a callback, split in front of the attribute. *)
Lemma ongea_callback_last (p k u : string) (t : Z) :
  VoiceHelper.ongea p k t u
  = ("<Say>" +:+ p +:+ "</Say><CollectDigits timeout='" +:+ str_int t
     +:+ "' finishOnKey='" +:+ k +:+ "' ")
    +:+ "callbackUrl='" +:+ u +:+ "'/>".
Proof. unfold VoiceHelper.ongea. by rewrite !append_assoc. Qed.

Lemma recordAudio_callback_last (options : gmap string string) :
  VoiceHelper.recordAudio options
  = ("<Say>" +:+ default "Please record your message" (options !! "introductionText")
     +:+ "</Say><Record finishOnKey='#' maxLength='60' playBeep='true' ")
    +:+ "callbackUrl='" +:+ default "" (options !! "audioProcessingUrl") +:+ "'/>".
Proof. unfold VoiceHelper.recordAudio. by rewrite !append_assoc. Qed.

Lemma next_step_probe (st : Step) (f : Form) (d : option string) :
  dtmfDigits f = d
  ∨ (∃ k, dtmfDigits f = Some k ∧ (k ∉ listed_inputs) ∧ d = Some "0") →
  next_step st (dtmfDigits f) = next_step st d.
Proof.
  intros [->|(k & -> & Hk & ->)]; [done|]. by apply next_step_unlisted.
Qed.

(** X4.  Whenever the call flow does not continue from a step (a missing,
    empty or unaccepted input; HungerRegion, WaterRegion and
    EmergencyRecording on every input), the response names no callback and
    holds neither a CollectDigits nor a Record action: nothing further is
    collected from the caller. *)
Theorem terminal_response_collects_nothing
    (APP_URL : string) (st : Step) (f : Form) :
  next_step st (dtmfDigits f) = None →
  ∃ r, result (post APP_URL st f) = Returned r
       ∧ occurrences "callbackUrl" (content r) = 0%nat
       ∧ occurrences collect_tag (content r) = 0%nat
       ∧ occurrences record_tag (content r) = 0%nat.
Proof.
  intros Hnext.
  destruct (post_probe APP_URL st f) as (d & Hd & -> & Hclass).
  rewrite (next_step_probe st f d Hclass) in Hnext. clear Hclass.
  each_probe Hd; destruct st; vm_compute in Hnext; simplify_eq;
    (eexists; split; [reflexivity|by vm_compute]).
Qed.

Lemma terminal_response_collects_nothing_witness :
  ∃ r, result (post "https://your-domain.com" HungerRegion
                 (digits_only (Some "1"))) = Returned r
       ∧ occurrences "callbackUrl" (content r) = 0%nat
       ∧ occurrences collect_tag (content r) = 0%nat
       ∧ occurrences record_tag (content r) = 0%nat.
Proof.
  apply (terminal_response_collects_nothing "https://your-domain.com"
           HungerRegion (digits_only (Some "1"))).
  reflexivity.
Defined.

(* --------------------------------------------------------------------- *)
(* The region tables and the generic region handler                      *)
(* --------------------------------------------------------------------- *)

Lemma three_key_table_keys (a b c k : string) :
  is_Some (({[ "1" := a; "2" := b; "3" := c ]} : gmap string string) !! k)
  ↔ k ∈ ["1"; "2"; "3"].
Proof.
  rewrite !elem_of_cons, elem_of_nil. split.
  - intros [v Hv]. apply three_key_table in Hv. tauto.
  - intros [->|[->|[->|[]]]]; eexists; by simplify_map_eq.
Qed.

(** X7.  The hunger table, the water table and the emergency region names
    are key-aligned: each has an entry for exactly the digits "1", "2" and
    "3", so a digit offered by the service menu is known to every region
    step. *)
Theorem region_tables_key_aligned (k : string) :
  (is_Some (hunger_region_responses !! k) ↔ k ∈ ["1"; "2"; "3"])
  ∧ (is_Some (water_region_responses !! k) ↔ k ∈ ["1"; "2"; "3"])
  ∧ (is_Some (regions !! k) ↔ k ∈ ["1"; "2"; "3"])
  ∧ (valid_input HungerRegion k = valid_input WaterRegion k)
  ∧ (valid_input WaterRegion k = valid_input EmergencyRegion k).
Proof.
  split_and!; try apply three_key_table_keys.
  - unfold valid_input. apply bool_decide_ext.
    unfold hunger_region_responses, water_region_responses.
    by rewrite !three_key_table_keys.
  - unfold valid_input. apply bool_decide_ext.
    unfold water_region_responses. by rewrite three_key_table_keys.
Qed.

(* --------------------------------------------------------------------- *)
(* The formatter: how many actions a fragment holds                      *)
(* --------------------------------------------------------------------- *)

(** X9.  saySomething adds exactly one Say action of its own and no other
    action, whatever the options: the fragment has one Say tag more than
    the speech it was given (the empty speech when the key is missing) and
    as many CollectDigits and Record tags.  A speech without markup gives
    exactly one Say action. *)
Theorem saySomething_tag_counts (options : gmap string string) :
  let speech := default "" (options !! "speech") in
  let fragment := VoiceHelper.saySomething options in
  occurrences say_tag fragment = S (occurrences say_tag speech)
  ∧ occurrences collect_tag fragment = occurrences collect_tag speech
  ∧ occurrences record_tag fragment = occurrences record_tag speech
  ∧ (options !! "speech" = None → fragment = "<Say></Say>").
Proof.
  intros speech fragment. subst speech fragment. unfold VoiceHelper.saySomething.
  split_and!; [count_tags; lia ..|].
  by intros ->.
Qed.

(** X10.  ongea adds exactly one Say and one CollectDigits action of its
    own and no Record action, for every prompt, finish key, timeout and
    callback URL: any further tag in the fragment was already in one of the
    three strings.  The rendered timeout never adds one. *)
Theorem ongea_tag_counts
    (textPrompt finishOnKey callbackUrl : string) (timeout : Z) :
  let fragment := VoiceHelper.ongea textPrompt finishOnKey timeout callbackUrl in
  let given tag :=
    (occurrences tag textPrompt + occurrences tag finishOnKey
     + occurrences tag callbackUrl)%nat in
  occurrences say_tag fragment = S (given say_tag)
  ∧ occurrences collect_tag fragment = S (given collect_tag)
  ∧ occurrences record_tag fragment = given record_tag.
Proof.
  intros fragment given. subst fragment given. unfold VoiceHelper.ongea.
  cbv zeta. split_and!; count_tags; lia.
Qed.

(** X11.  collectDigits adds exactly one Say and one CollectDigits action
    of its own and no Record action, for every prompt, digit count, timeout,
    finish key and callback URL; the rendered numbers never add a tag. *)
Theorem collectDigits_tag_counts
    (prompt finishOnKey callbackUrl : string) (numDigits timeout : Z) :
  let fragment :=
    VoiceHelper.collectDigits prompt numDigits timeout finishOnKey callbackUrl in
  let given tag :=
    (occurrences tag prompt + occurrences tag finishOnKey
     + occurrences tag callbackUrl)%nat in
  occurrences say_tag fragment = S (given say_tag)
  ∧ occurrences collect_tag fragment = S (given collect_tag)
  ∧ occurrences record_tag fragment = given record_tag.
Proof.
  intros fragment given. subst fragment given. unfold VoiceHelper.collectDigits.
  cbv zeta. split_and!; count_tags; lia.
Qed.

(** X12.  recordAudio adds exactly one Say and one Record action of its own
    and no CollectDigits action, whatever the options; a missing
    introductionText is replaced by "Please record your message" and a
    missing audioProcessingUrl by the empty URL, neither of which adds a
    tag. *)
Theorem recordAudio_tag_counts (options : gmap string string) :
  let intro_text :=
    default "Please record your message" (options !! "introductionText") in
  let processing_url := default "" (options !! "audioProcessingUrl") in
  let fragment := VoiceHelper.recordAudio options in
  let given tag :=
    (occurrences tag intro_text + occurrences tag processing_url)%nat in
  occurrences say_tag fragment = S (given say_tag)
  ∧ occurrences collect_tag fragment = given collect_tag
  ∧ occurrences record_tag fragment = S (given record_tag)
  ∧ (options !! "introductionText" = None →
     options !! "audioProcessingUrl" = None →
     fragment
     = "<Say>Please record your message</Say><Record finishOnKey='#' maxLength='60' playBeep='true' callbackUrl=''/>").
Proof.
  intros intro_text processing_url fragment given.
  subst intro_text processing_url fragment given. cbv beta.
  unfold VoiceHelper.recordAudio. cbv zeta.
  split_and!; [count_tags; lia ..|].
  by intros -> ->.
Qed.

(** X13.  The Response envelope adds no action: the document has exactly as
    many Say, CollectDigits and Record tags as the content it wraps, for
    every content. *)
Theorem create_xml_response_tag_counts (content : string) :
  occurrences say_tag (create_xml_response content) = occurrences say_tag content
  ∧ occurrences collect_tag (create_xml_response content)
    = occurrences collect_tag content
  ∧ occurrences record_tag (create_xml_response content)
    = occurrences record_tag content.
Proof.
  unfold create_xml_response. split_and!; count_tags; lia.
Qed.

(* --------------------------------------------------------------------- *)
(* The formatter: the attributes of dial                                 *)
(* --------------------------------------------------------------------- *)

Lemma eqb_empty_false (s : string) : s ≠ "" → String.eqb s "" = false.
Proof. by destruct s. Qed.

(** A join of non-empty strings is empty only for the empty list. *)
Lemma concat_nonempty (sep a : string) (l : list string) :
  a ≠ "" → String.concat sep (a :: l) ≠ "".
Proof.
  intros Ha. destruct a as [|x a]; [done|].
  destruct l; [done|]. cbn [String.concat].
  change (String x a +:+ ?r) with (String x (a +:+ r)). done.
Qed.

(** [join_nonempty] is [' '.join(filter(None, attrs))]: the join, with one
    space, of the strings that are not empty. *)
Lemma join_nonempty_concat (attrs : list string) :
  VoiceHelper.join_nonempty attrs
  = String.concat " " (filter (λ s, s ≠ "") attrs).
Proof.
  induction attrs as [|a rest IH]; [done|].
  cbn [VoiceHelper.join_nonempty].
  destruct (String.eqb_spec a "") as [->|Ha].
  - by rewrite filter_cons_False by (by intros []).
  - rewrite filter_cons_True by done. rewrite IH.
    destruct (filter (λ s, s ≠ "") rest) as [|b l] eqn:Hrest; [done|].
    assert (b ≠ "") as Hb.
    { assert (b ∈ filter (λ s, s ≠ "") rest) as Hin
        by (rewrite Hrest; apply elem_of_cons; by left).
      by apply list_elem_of_filter in Hin as [? _]. }
    rewrite eqb_empty_false by by apply concat_nonempty.
    done.
Qed.

(** X14.  dial renders, inside the Dial tag and in this order, record="true"
    exactly when record is set, sequential="true" exactly when sequentially
    is set and callerId with the given value exactly when caller_id is not
    empty, each after one space; with none of them the tag is the bare
    <Dial>.  The number always follows in a Number element. *)
Theorem dial_attributes (phone_number caller_id : string)
    (record sequentially : bool) :
  VoiceHelper.dial phone_number record sequentially caller_id
  = "<Dial"
    +:+ (if record then dial_attribute "record" "true" else "")
    +:+ (if sequentially then dial_attribute "sequential" "true" else "")
    +:+ (if bool_decide (caller_id = "") then ""
         else dial_attribute "callerId" caller_id)
    +:+ "><Number>" +:+ phone_number +:+ "</Number></Dial>".
Proof.
  assert (∀ a s t, String.eqb (String a s +:+ t) "" = false) as Hlit by done.
  unfold VoiceHelper.dial, dial_attribute.
  destruct caller_id as [|c caller_id].
  - by destruct record, sequentially.
  - rewrite bool_decide_eq_false_2 by done.
    destruct record, sequentially; cbv zeta;
      cbn [VoiceHelper.join_nonempty String.eqb negb];
      repeat (rewrite ?append_assoc; rewrite Hlit; cbn [negb]);
      rewrite ?append_assoc; reflexivity.
Qed.

(* --------------------------------------------------------------------- *)
(* The documents of the valid branches, written out                      *)
(* --------------------------------------------------------------------- *)

(** A pattern found at the front of a string is found at the front of every
    extension of it. *)
Lemma prefix_app_l (p s t : string) :
  String.prefix p s = true → String.prefix p (s +:+ t) = true.
Proof.
  revert s. induction p as [|a p IH]; intros s; [by rewrite !prefix_empty|].
  destruct s as [|b s]; [done|].
  change (String b s +:+ t) with (String b (s +:+ t)). cbn [String.prefix].
  destruct (Ascii.ascii_dec a b); [apply IH|done].
Qed.

Lemma occurrences_app_l (p a b : string) :
  (occurrences p a ≤ occurrences p (a +:+ b))%nat.
Proof.
  induction a as [|x a IH].
  - change ("" +:+ b) with b. destruct p as [|y p]; [|cbn; lia].
    destruct b; cbn; lia.
  - change (String x a +:+ b) with (String x (a +:+ b)).
    rewrite !(occurrences_cons _ x).
    destruct (String.prefix p (String x a)) eqn:E.
    + change (String x (a +:+ b)) with (String x a +:+ b) at 1.
      rewrite (prefix_app_l _ _ b E). lia.
    + lia.
Qed.

(** What a front part of a document contains, the document contains. *)
Lemma contains_app_l (p a b : string) :
  contains p a = true → contains p (a +:+ b) = true.
Proof.
  unfold contains. rewrite !negb_true_iff, !Nat.eqb_neq.
  pose proof (occurrences_app_l p a b). lia.
Qed.

(** A handler result that is a written-out record once the document of the
    handler is re-associated. *)
Ltac written_out :=
  lazymatch goal with
  | |- ?m = Returned ?R =>
      let H := fresh "H" in
      let r := fresh "r" in
      let Hr := fresh "Hr" in
      let HR := fresh "HR" in
      assert (∃ r, m = Returned r ∧ r = R) as (r & Hr & HR);
      [ eexists; split; [reflexivity|];
        unfold xml_Response, create_xml_response, VoiceHelper.ongea,
          VoiceHelper.saySomething, VoiceHelper.recordAudio, path;
        dict_lookups; rewrite ?append_assoc; reflexivity
      | by rewrite Hr, HR ]
  end.

(** C5.  The Entry step, whatever the form holds (sessionId and callerNumber
    present or not), returns a 200 text/xml response whose body is the
    Response envelope around a Say action with the welcome greeting followed
    by a CollectDigits action with timeout 10, finishOnKey '#', numDigits 1
    and callbackUrl equal to the base URL followed by /voice/language. *)
Theorem entry_greets_and_collects (APP_URL : string) (f : Form) :
  result (post APP_URL Entry f)
  = Returned
      {| content :=
           "<?xml version='1.0' encoding='UTF-8'?><Response><Say>Welcome to Ongea Emergency Services! Press 1 for English or 2 for Swahili.</Say><CollectDigits timeout='10' finishOnKey='#' numDigits='1' callbackUrl='"
           +:+ (APP_URL +:+ "/voice/language") +:+ "'/></Response>";
         status_code := 200;
         media_type := Some "text/xml" |}.
Proof.
  rewrite result_post_digits. written_out.
Qed.

Lemma entry_greets_and_collects_witness :
  result (post "https://your-domain.com" Entry
            (mkForm None (Some "ATVId_1") (Some "+254700000001") None None))
  = Returned
      {| content :=
           "<?xml version='1.0' encoding='UTF-8'?><Response><Say>Welcome to Ongea Emergency Services! Press 1 for English or 2 for Swahili.</Say><CollectDigits timeout='10' finishOnKey='#' numDigits='1' callbackUrl='https://your-domain.com/voice/language'/></Response>";
         status_code := 200;
         media_type := Some "text/xml" |}.
Proof.
  apply (entry_greets_and_collects "https://your-domain.com"
           (mkForm None (Some "ATVId_1") (Some "+254700000001") None None)).
Defined.

(** What the front of a document contains, read off before the base URL. *)
Ltac contains_front :=
  first [ by vm_compute | apply contains_app_l; contains_front ].

(** C6.  The hunger table and the water table have exactly the keys "1",
    "2" and "3".  For each of these keys k the HungerRegion (resp.
    WaterRegion) step on input k returns a 200 text/xml response whose body
    is the Response envelope around one Say action carrying the table's
    entry for k; that text, and so the body, contains the region name of k
    (Nairobi, Turkana, Kiambu) and the responder phrase of the category:
    "region office" for hunger, "water department" for water. *)
Theorem region_step_names_region_and_responder
    (APP_URL : string) (st : Step) (table : gmap string string)
    (phrase k name : string) (f : Form) :
  (st, table, phrase)
    ∈ [(HungerRegion, hunger_region_responses, "region office");
       (WaterRegion, water_region_responses, "water department")] →
  (k, name) ∈ region_names →
  dtmfDigits f = Some k →
  (∀ k', is_Some (table !! k') ↔ k' ∈ ["1"; "2"; "3"])
  ∧ ∃ t r,
      table !! k = Some t
      ∧ result (post APP_URL st f) = Returned r
      ∧ r = {| content :=
                 "<?xml version='1.0' encoding='UTF-8'?><Response><Say>"
                 +:+ t +:+ "</Say></Response>";
               status_code := 200;
               media_type := Some "text/xml" |}
      ∧ occurrences say_tag (content r) = 1%nat
      ∧ contains name t = true
      ∧ contains phrase t = true
      ∧ contains name (content r) = true
      ∧ contains phrase (content r) = true.
Proof.
  intros Hst Hk Hd. rewrite result_post_digits, Hd.
  rewrite !elem_of_cons, elem_of_nil in Hst.
  apply region_names_cases in Hk.
  destruct Hst as [Hst|[Hst|[]]]; simplify_eq;
    (split; [apply three_key_table_keys|]);
    destruct Hk as [[-> ->]|[[-> ->]|[-> ->]]];
    (eexists _, _; split_and!;
     [reflexivity|reflexivity|reflexivity|by vm_compute ..]).
Qed.

Lemma region_step_names_region_and_responder_witness :
  result (post "https://your-domain.com" WaterRegion (digits_only (Some "2")))
  = Returned
      {| content :=
           "<?xml version='1.0' encoding='UTF-8'?><Response><Say>Thank you. Turkana water department has been notified about the water shortage. They will address this issue.</Say></Response>";
         status_code := 200;
         media_type := Some "text/xml" |}
  ∧ contains "Turkana"
      "<?xml version='1.0' encoding='UTF-8'?><Response><Say>Thank you. Turkana water department has been notified about the water shortage. They will address this issue.</Say></Response>"
    = true
  ∧ contains "water department"
      "<?xml version='1.0' encoding='UTF-8'?><Response><Say>Thank you. Turkana water department has been notified about the water shortage. They will address this issue.</Say></Response>"
    = true.
Proof.
  destruct (region_step_names_region_and_responder "https://your-domain.com"
              WaterRegion water_region_responses "water department" "2"
              "Turkana" (digits_only (Some "2")))
    as (_ & t & r & Ht & Hr & HR & _ & _ & _ & Hname & Hphrase).
  - apply elem_of_cons. right. apply elem_of_cons. by left.
  - unfold region_names. apply elem_of_cons. right. apply elem_of_cons. by left.
  - reflexivity.
  - vm_compute in Ht. injection Ht as <-. subst r.
    split_and!; [exact Hr|exact Hname|exact Hphrase].
Defined.

(** C7.  The Diagnostic step (POST /ongea).  The input "2545" gets a 200
    text/xml response whose body is the envelope around a Say action with
    the text "Welcome Back to Medicare Services." followed by a
    CollectDigits action whose callbackUrl is the base URL followed by
    /emergency/region.  A missing input or the word "undefined" gets the
    204 no-op with an empty body.  Every other input gets a 200 text/xml
    response whose body is the envelope around the one Say action "The code
    entered is not valid.". *)
Theorem diagnostic_step (APP_URL : string) (f : Form) :
  (dtmfDigits f = Some "2545" →
   ∃ r, result (post APP_URL Diagnostic f) = Returned r
        ∧ r = {| content :=
                   "<?xml version='1.0' encoding='UTF-8'?><Response><Say>Welcome Back to Medicare Services.</Say><CollectDigits timeout='15' finishOnKey='#' callbackUrl='"
                   +:+ (APP_URL +:+ "/emergency/region") +:+ "'/></Response>";
                 status_code := 200;
                 media_type := Some "text/xml" |}
        ∧ contains "<Say>Welcome Back" (content r) = true
        ∧ contains "<CollectDigits" (content r) = true)
  ∧ (dtmfDigits f = None ∨ dtmfDigits f = Some "undefined" →
     result (post APP_URL Diagnostic f)
     = Returned {| content := ""; status_code := 204; media_type := None |})
  ∧ (∀ k, dtmfDigits f = Some k → k ≠ "2545" → k ≠ "undefined" →
     ∃ r, result (post APP_URL Diagnostic f) = Returned r
          ∧ r = {| content :=
                     "<?xml version='1.0' encoding='UTF-8'?><Response><Say>The code entered is not valid.</Say></Response>";
                   status_code := 200;
                   media_type := Some "text/xml" |}
          ∧ occurrences say_tag (content r) = 1%nat
          ∧ occurrences collect_tag (content r) = 0%nat
          ∧ contains "not valid" (content r) = true).
Proof.
  rewrite result_post_digits. split_and!.
  - intros ->. eexists. split_and!; cycle 1.
    + reflexivity.
    + simpl content. contains_front.
    + simpl content. contains_front.
    + written_out.
  - by intros [-> | ->].
  - intros k -> H1 H2. eexists. split_and!; [|reflexivity|by vm_compute ..].
    unfold post, ongea_special. simpl dtmfDigits. rewrite result_try_print.
    assert (is_in (Some k) [None; Some "undefined"] = false) as ->.
    { apply bool_decide_eq_false_2.
      rewrite !not_elem_of_cons. split_and!; [done|congruence|apply not_elem_of_nil]. }
    by rewrite eq_str_Some, bool_decide_eq_false_2.
Qed.

Lemma diagnostic_step_witness :
  result (post "https://your-domain.com" Diagnostic (digits_only (Some "2545")))
  = Returned
      {| content :=
           "<?xml version='1.0' encoding='UTF-8'?><Response><Say>Welcome Back to Medicare Services.</Say><CollectDigits timeout='15' finishOnKey='#' callbackUrl='https://your-domain.com/emergency/region'/></Response>";
         status_code := 200;
         media_type := Some "text/xml" |}
  ∧ result (post "https://your-domain.com" Diagnostic (digits_only (Some "undefined")))
    = Returned {| content := ""; status_code := 204; media_type := None |}
  ∧ result (post "https://your-domain.com" Diagnostic (digits_only None))
    = Returned {| content := ""; status_code := 204; media_type := None |}
  ∧ result (post "https://your-domain.com" Diagnostic (digits_only (Some "1234")))
    = Returned
        {| content :=
             "<?xml version='1.0' encoding='UTF-8'?><Response><Say>The code entered is not valid.</Say></Response>";
           status_code := 200;
           media_type := Some "text/xml" |}.
Proof.
  split_and!.
  - destruct (diagnostic_step "https://your-domain.com"
                (digits_only (Some "2545"))) as (Hcode & _ & _).
    destruct (Hcode eq_refl) as (r & Hr & -> & _). exact Hr.
  - apply (diagnostic_step "https://your-domain.com"
             (digits_only (Some "undefined"))).
    right. reflexivity.
  - apply (diagnostic_step "https://your-domain.com" (digits_only None)).
    left. reflexivity.
  - destruct (diagnostic_step "https://your-domain.com"
                (digits_only (Some "1234"))) as (_ & _ & Hother).
    destruct (Hother "1234" eq_refl) as (r & Hr & -> & _);
      [discriminate|discriminate|exact Hr].
Defined.

(* --------------------------------------------------------------------- *)
(* Callbacks and menus, written out                                      *)
(* --------------------------------------------------------------------- *)

(** The envelope around a document that ends in a callback attribute. *)
Lemma envelope_callback_last (doc u : string) :
  create_xml_response (doc +:+ "callbackUrl='" +:+ u +:+ "'/>")
  = "<?xml version='1.0' encoding='UTF-8'?><Response>"
    +:+ doc +:+ "callbackUrl='" +:+ u +:+ "'/></Response>".
Proof. unfold create_xml_response. by rewrite !append_assoc. Qed.

(** X3.  Whenever the call flow continues from a step (Entry always;
    LanguageSelect on "1" or "2"; ServiceSelect on "1", "2", "3";
    EmergencyRegion on "1", "2", "3"; Diagnostic on "2545"), the response is
    a 200 text/xml response whose body is the Response envelope around one
    Say action and one collecting action (CollectDigits or Record) that ends
    in callbackUrl, the base URL followed by the registered path of the next
    step; nothing before it names a callback.  The next step is always
    strictly closer to the end of the call: no step calls back to itself or
    to an earlier one, and no step calls back to /voice or /ongea. *)
Theorem callback_names_next_step
    (APP_URL : string) (st st' : Step) (f : Form) :
  next_step st (dtmfDigits f) = Some st' →
  (∃ r, result (post APP_URL st f) = Returned r
        ∧ carries_callback (APP_URL +:+ path st') r)
  ∧ (turns_left st' < turns_left st)%nat
  ∧ st' ≠ Entry ∧ st' ≠ Diagnostic.
Proof.
  intros Hnext.
  destruct (post_probe APP_URL st f) as (d & Hd & -> & Hclass).
  rewrite (next_step_probe st f d Hclass) in Hnext. clear Hclass.
  each_probe Hd; destruct st; vm_compute in Hnext; simplify_eq;
    (split_and!; [|simpl; lia|done|done]);
    (eexists; split; [reflexivity|]);
    (split_and!; [done|done|]);
    unfold xml_Response, content, path;
    rewrite ?ongea_callback_last, ?recordAudio_callback_last;
    first
      [ rewrite envelope_callback_last; dict_lookups;
        eexists; split_and!; [reflexivity|by vm_compute ..]
      | exists ("<Say>Welcome to Ongea Emergency Services! "
                +:+ "Press 1 for English or 2 for Swahili.</Say>"
                +:+ "<CollectDigits timeout='10' finishOnKey='#' numDigits='1' ");
        split_and!;
        [unfold create_xml_response; by rewrite !append_assoc|by vm_compute ..] ].
Qed.

Lemma callback_names_next_step_witness :
  (∃ r, result (post "https://your-domain.com" ServiceSelect
                  (digits_only (Some "2"))) = Returned r
        ∧ carries_callback ("https://your-domain.com" +:+ path WaterRegion) r)
  ∧ (turns_left WaterRegion < turns_left ServiceSelect)%nat
  ∧ WaterRegion ≠ Entry ∧ WaterRegion ≠ Diagnostic.
Proof.
  apply (callback_names_next_step "https://your-domain.com" ServiceSelect
           WaterRegion (digits_only (Some "2"))).
  reflexivity.
Defined.

(** X5.  The language choice is accepted and ignored: "1" and "2" at
    LanguageSelect get one and the same 200 text/xml response, whose body is
    the envelope around the Say action with the service menu and a
    CollectDigits action with timeout 10, finishOnKey '#' and callbackUrl
    equal to the base URL followed by /service/selection. *)
Theorem language_choice_is_ignored (APP_URL : string) (f g : Form) :
  dtmfDigits f = Some "1" →
  dtmfDigits g = Some "2" →
  ∃ r, result (post APP_URL LanguageSelect f) = Returned r
       ∧ result (post APP_URL LanguageSelect g) = Returned r
       ∧ r = {| content :=
                  "<?xml version='1.0' encoding='UTF-8'?><Response><Say>Welcome to Ongea Emergency Services. Press 1 to report hunger, press 2 to report water shortage, press 3 for medical emergency.</Say><CollectDigits timeout='10' finishOnKey='#' callbackUrl='"
                  +:+ (APP_URL +:+ "/service/selection") +:+ "'/></Response>";
                status_code := 200;
                media_type := Some "text/xml" |}
       ∧ path ServiceSelect = "/service/selection".
Proof.
  intros Hf Hg.
  rewrite (result_post_digits _ _ f), (result_post_digits _ _ g), Hf, Hg.
  eexists. split_and!; cycle 2.
  - reflexivity.
  - reflexivity.
  - written_out.
  - written_out.
Qed.

Lemma language_choice_is_ignored_witness :
  result (post "https://your-domain.com" LanguageSelect (digits_only (Some "1")))
  = Returned
      {| content :=
           "<?xml version='1.0' encoding='UTF-8'?><Response><Say>Welcome to Ongea Emergency Services. Press 1 to report hunger, press 2 to report water shortage, press 3 for medical emergency.</Say><CollectDigits timeout='10' finishOnKey='#' callbackUrl='https://your-domain.com/service/selection'/></Response>";
         status_code := 200;
         media_type := Some "text/xml" |}
  ∧ result (post "https://your-domain.com" LanguageSelect (digits_only (Some "2")))
    = Returned
        {| content :=
             "<?xml version='1.0' encoding='UTF-8'?><Response><Say>Welcome to Ongea Emergency Services. Press 1 to report hunger, press 2 to report water shortage, press 3 for medical emergency.</Say><CollectDigits timeout='10' finishOnKey='#' callbackUrl='https://your-domain.com/service/selection'/></Response>";
           status_code := 200;
           media_type := Some "text/xml" |}.
Proof.
  destruct (language_choice_is_ignored "https://your-domain.com"
              (digits_only (Some "1")) (digits_only (Some "2")) eq_refl eq_refl)
    as (r & Hf & Hg & -> & _).
  split; [exact Hf|exact Hg].
Defined.

(** X6.  ServiceSelect on "1", "2" or "3" returns a 200 text/xml response
    whose body is the envelope around a Say action with the prompt of that
    report (hunger, water shortage, medical emergency) and a CollectDigits
    action with timeout 15, finishOnKey '#' and callbackUrl equal to the
    base URL followed by the path of the region step of that report
    (/hunger/region, /water/region, /emergency/region).  The body offers the
    regions under the digits the region steps use ("1 for Nairobi", "2 for
    Turkana", "3 for Kiambu"). *)
Theorem service_selection_routes
    (APP_URL k prompt : string) (st' : Step) (f : Form) :
  (k, prompt, st') ∈ service_menu →
  dtmfDigits f = Some k →
  ∃ r,
    result (post APP_URL ServiceSelect f) = Returned r
    ∧ r = {| content :=
               ("<?xml version='1.0' encoding='UTF-8'?><Response><Say>"
                +:+ prompt
                +:+ "</Say><CollectDigits timeout='15' finishOnKey='#' callbackUrl='")
               +:+ (APP_URL +:+ path st') +:+ "'/></Response>";
             status_code := 200;
             media_type := Some "text/xml" |}
    ∧ path st' ∈ ["/hunger/region"; "/water/region"; "/emergency/region"]
    ∧ ∀ digit name, (digit, name) ∈ region_names →
        contains (digit +:+ " for " +:+ name) (content r) = true.
Proof.
  intros Hk Hd. rewrite result_post_digits, Hd.
  unfold service_menu in Hk. rewrite !elem_of_cons, elem_of_nil in Hk.
  destruct Hk as [Hk|[Hk|[Hk|[]]]]; simplify_eq;
    (eexists; split_and!; cycle 1;
     [ reflexivity
     | unfold path; set_solver
     | intros digit name [[-> ->]|[[-> ->]|[-> ->]]]%region_names_cases;
       simpl content; apply contains_app_l; by vm_compute
     | written_out ]).
Qed.

Lemma service_selection_routes_witness :
  result (post "https://your-domain.com" ServiceSelect (digits_only (Some "2")))
  = Returned
      {| content :=
           "<?xml version='1.0' encoding='UTF-8'?><Response><Say>Thank you for reporting water shortage. Please select your region: Press 1 for Nairobi, 2 for Turkana, 3 for Kiambu.</Say><CollectDigits timeout='15' finishOnKey='#' callbackUrl='https://your-domain.com/water/region'/></Response>";
         status_code := 200;
         media_type := Some "text/xml" |}.
Proof.
  destruct (service_selection_routes "https://your-domain.com" "2"
              "Thank you for reporting water shortage. Please select your region: Press 1 for Nairobi, 2 for Turkana, 3 for Kiambu."
              WaterRegion (digits_only (Some "2")))
    as (r & Hr & -> & _).
  - unfold service_menu. apply elem_of_cons. right. apply elem_of_cons. by left.
  - reflexivity.
  - exact Hr.
Defined.

(** X8.  The generic region handler on any table.  An entry added under a
    non-empty key is spoken for that key: the response is 200 text/xml and
    its body is the envelope around the one Say action with the entry, so
    it has one Say tag more than the entry itself.  The added entry changes
    the answer to no other input.  A non-empty key without entry gets the
    Say action "Invalid selection. Goodbye.".  An entry under the empty key
    is never spoken, since the empty input is answered with the 204 no-op
    before the table is read. *)
Theorem region_table_entry
    (responses : gmap string string) (k v : string) (d : option string) :
  (k ≠ "" →
   ∃ r, result (handle_region_response (Some k) (<[k:=v]> responses))
        = Returned r
        ∧ r = {| content :=
                   "<?xml version='1.0' encoding='UTF-8'?><Response><Say>"
                   +:+ v +:+ "</Say></Response>";
                 status_code := 200;
                 media_type := Some "text/xml" |}
        ∧ occurrences say_tag (content r) = S (occurrences say_tag v))
  ∧ (d ≠ Some k →
     result (handle_region_response d (<[k:=v]> responses))
     = result (handle_region_response d responses))
  ∧ (k ≠ "" → responses !! k = None →
     result (handle_region_response (Some k) responses)
     = Returned
         {| content :=
              "<?xml version='1.0' encoding='UTF-8'?><Response><Say>Invalid selection. Goodbye.</Say></Response>";
            status_code := 200;
            media_type := Some "text/xml" |})
  ∧ (k = "" →
     result (handle_region_response d (<[k:=v]> responses))
     = result (handle_region_response d responses)
     ∧ result (handle_region_response (Some k) (<[k:=v]> responses))
       = Returned {| content := ""; status_code := 204; media_type := None |}).
Proof.
  assert (∀ d', d' ≠ Some k →
            result (handle_region_response d' (<[k:=v]> responses))
            = result (handle_region_response d' responses)) as Hother.
  { intros d' Hd'. unfold handle_region_response.
    destruct d' as [k'|]; [|done].
    unfold dict_get. rewrite lookup_insert_ne; [done|congruence]. }
  split_and!.
  - intros Hk. eexists. split_and!; cycle 1.
    + reflexivity.
    + simpl content. count_tags. lia.
    + rewrite (region_step_speaks _ _ k v); [| done | apply lookup_insert_eq | done].
      unfold xml_Response, create_xml_response. by rewrite !append_assoc.
  - apply Hother.
  - intros Hk Hnone. unfold handle_region_response.
    rewrite truthy_Some, bool_decide_eq_false_2 by done. simpl negb. cbv iota.
    rewrite dict_get_absent; [done|]. rewrite Hnone. by intros [? [=]].
  - intros ->. split; [|done].
    destruct (decide (d = Some "")) as [->|Hd]; [done|].
    by apply Hother.
Qed.

Lemma region_table_entry_witness :
  result (handle_region_response (Some "4")
            (<["4":="Thank you. Garissa region office has been notified."]>
               hunger_region_responses))
  = Returned
      {| content :=
           "<?xml version='1.0' encoding='UTF-8'?><Response><Say>Thank you. Garissa region office has been notified.</Say></Response>";
         status_code := 200;
         media_type := Some "text/xml" |}.
Proof.
  destruct (region_table_entry hunger_region_responses "4"
              "Thank you. Garissa region office has been notified." None)
    as (Hspoken & _).
  destruct Hspoken as (r & Hr & -> & _); [discriminate|exact Hr].
Defined.
